(** * dota-stats: the match scraper of [fetch.py]

    A shallow embedding of [process_match] and [fetch_matches] and of the
    ledger update they perform, with the statements of the specification
    proved or refuted against it.

    Conventions of the embedding.
    - JSON data and Python objects are values of the type [value]; a JSON
      object, a Python [dict] with string keys, is an association list in
      insertion order, each key once.  The cache [batch_match] and the
      tables of [meta], which are only read and extended, are finite maps.
    - Python 3 semantics: comparing a number with a non-number raises
      [TypeError]; [bool] is a subtype of [int].  JSON floats and [null] are
      outside the model.
    - Code that can raise is written in the monad [outcome]; code that also
      touches the process state (the module globals [batch_match] and
      [this_aws], the sqlite connection, the network, the clock) is written
      in the monad [M], a state monad over [world] in which the state
      survives an exception, as in Python.
    - An early [return] inside a code segment is the constructor [Return] of
      [flow]; falling through to the next statement is [Next].
    - Logging and printing are not modelled. *)

From stdpp Require Import gmap strings list fin_maps pretty.
From Stdlib Require Import ZArith QArith.
From Stdlib.Strings Require Import Byte Ascii.

#[local] Set Warnings "-register-all".
#[local] Open Scope Z_scope.

(** ** Values *)

Inductive value : Type :=
| VInt (z : Z)
| VBool (b : bool)
| VStr (s : string)
| VList (l : list value)
| VDict (d : list (string * value))
| VBinary (b : list byte).

(** ** Dicts

    A [dict] keeps its items in insertion order.  Reading takes the first
    item with the key, assignment replaces it in place or appends, and
    removal drops the key altogether. *)
#[local] Abbreviation dict := (list (string * value)).

Fixpoint dict_lookup (k : string) (d : dict) : option value :=
  match d with
  | [] => None
  | (k', v) :: d' => if String.eqb k k' then Some v else dict_lookup k d'
  end.

Fixpoint dict_set (k : string) (v : value) (d : dict) : dict :=
  match d with
  | [] => [(k, v)]
  | (k', v') :: d' =>
      if String.eqb k k' then (k, v) :: d' else (k', v') :: dict_set k v d'
  end.

Fixpoint dict_del (k : string) (d : dict) : dict :=
  match d with
  | [] => []
  | (k', v') :: d' =>
      if String.eqb k k' then dict_del k d' else (k', v') :: dict_del k d'
  end.

#[global] Instance dict_Lookup : Lookup string value (list (string * value)) := dict_lookup.
#[global] Instance dict_Insert : Insert string value (list (string * value)) := dict_set.
#[global] Instance dict_Delete : Delete string (list (string * value)) := dict_del.

(** The numeric reading of a value: [int], and [bool] as its subtype. *)
Definition as_num (v : value) : option Z :=
  match v with
  | VInt z => Some z
  | VBool b => Some (if b then 1 else 0)
  | _ => None
  end.

(** [v == {}] *)
Definition is_empty_dict (v : value) : bool :=
  match v with
  | VDict [] => true
  | _ => false
  end.

(** ** Exceptions and the two monads *)

Inductive exn : Type :=
| KeyError (k : value)
| TypeError
| ValueError
| IndexError
| OverflowError
| JSONDecodeError
| NameError (name : string)
| UnboundLocalError (name : string)
| ConnectionError
| StorageError
| OutOfFuel.  (* not a Python exception: the loop budget of the model ran out *)

Inductive outcome (A : Type) : Type :=
| Ret (a : A)
| Raise (e : exn).
Arguments Ret {A} a.
Arguments Raise {A} e.

Definition obind {A B : Type} (c : outcome A) (k : A → outcome B) : outcome B :=
  match c with
  | Ret a => k a
  | Raise e => Raise e
  end.

Notation "x <~ c ;; k" := (obind c (fun x => k))
  (at level 100, c at next level, right associativity).

Inductive flow (A : Type) : Type :=
| Return (v : value)
| Next (a : A).
Arguments Return {A} v.
Arguments Next {A} a.

(** One row of the sqlite table [workflow_stats]:
    (batch_time, updated_epoch, fetch, pair). *)
Record stats_row : Type := Row {
  row_batch_time : Z;
  row_updated_epoch : Z;
  row_fetch : Z;
  row_pair : Z
}.

Record world : Type := World {
  batch_match : gmap string value;  (* the module global of line 80 *)
  dota_table : list value;          (* items written by put_item, oldest first *)
  put_calls : nat;                  (* calls of put_item so far *)
  workflow_stats : list stats_row;  (* the ledger table, in rowid order *)
  requests_made : nat;              (* calls of requests.get so far *)
  slept : list Q;                   (* arguments of time.sleep, oldest first *)
  clock_reads : nat                 (* calls of datetime.utcnow so far *)
}.

Definition M (A : Type) : Type := world → outcome A * world.

Definition ret {A : Type} (a : A) : M A := fun w => (Ret a, w).
Definition raise {A : Type} (e : exn) : M A := fun w => (Raise e, w).
Definition lift {A : Type} (o : outcome A) : M A := fun w => (o, w).

Definition bind {A B : Type} (c : M A) (k : A → M B) : M B :=
  fun w =>
    match c w with
    | (Ret a, w') => k a w'
    | (Raise e, w') => (Raise e, w')
    end.

Notation "x <- c ;; k" := (bind c (fun x => k))
  (at level 100, c at next level, right associativity).

(** [try: c  except: h] with a bare [except]. *)
Definition try_except {A : Type} (c : M A) (h : M A) : M A :=
  fun w =>
    match c w with
    | (Ret a, w') => (Ret a, w')
    | (Raise _, w') => h w'
    end.

(** [while cond: body], with a budget of iterations. *)
Fixpoint while_ {S : Type} (fuel : nat) (cond : S → bool) (body : S → M S)
    (s : S) : M S :=
  if cond s then
    match fuel with
    | O => raise OutOfFuel
    | Datatypes.S fuel' => s' <- body s ;; while_ fuel' cond body s'
    end
  else ret s.

(** State updates. *)
Definition set_batch_match (f : gmap string value → gmap string value) (w : world) : world :=
  World (f (batch_match w)) (dota_table w) (put_calls w) (workflow_stats w)
        (requests_made w) (slept w) (clock_reads w).
Definition set_dota_table (f : list value → list value) (w : world) : world :=
  World (batch_match w) (f (dota_table w)) (put_calls w) (workflow_stats w)
        (requests_made w) (slept w) (clock_reads w).
Definition set_put_calls (f : nat → nat) (w : world) : world :=
  World (batch_match w) (dota_table w) (f (put_calls w)) (workflow_stats w)
        (requests_made w) (slept w) (clock_reads w).
Definition set_workflow_stats (f : list stats_row → list stats_row) (w : world) : world :=
  World (batch_match w) (dota_table w) (put_calls w) (f (workflow_stats w))
        (requests_made w) (slept w) (clock_reads w).
Definition set_requests_made (f : nat → nat) (w : world) : world :=
  World (batch_match w) (dota_table w) (put_calls w) (workflow_stats w)
        (f (requests_made w)) (slept w) (clock_reads w).
Definition set_slept (f : list Q → list Q) (w : world) : world :=
  World (batch_match w) (dota_table w) (put_calls w) (workflow_stats w)
        (requests_made w) (f (slept w)) (clock_reads w).
Definition set_clock_reads (f : nat → nat) (w : world) : world :=
  World (batch_match w) (dota_table w) (put_calls w) (workflow_stats w)
        (requests_made w) (slept w) (f (clock_reads w)).

(** ** Python primitives on values *)

(** [v[k]] for a string [k]. *)
Definition getitem (v : value) (k : string) : outcome value :=
  match v with
  | VDict d =>
      match d !! k with
      | Some x => Ret x
      | None => Raise (KeyError (VStr k))
      end
  | _ => Raise TypeError
  end.

(** [d[k]] for a dict [d]. *)
Definition dict_get (d : dict) (k : string) : outcome value :=
  getitem (VDict d) k.

(** [d.pop(k)] for a dict [d]: the dict without [k]. *)
Definition dict_pop (d : dict) (k : string) : outcome (dict) :=
  match d !! k with
  | Some _ => Ret (delete k d)
  | None => Raise (KeyError (VStr k))
  end.

(** Comparisons whose right operand is a number.  At every call site the
    right operand is a literal or [match['calc_leaver']], which holds 0 or a
    value that compared greater than a number. *)
Definition num_cmp (op : Z → Z → bool) (a b : value) : outcome bool :=
  match as_num a, as_num b with
  | Some x, Some y => Ret (op x y)
  | _, _ => Raise TypeError
  end.
Definition py_lt := num_cmp Z.ltb.
Definition py_le := num_cmp Z.leb.
Definition py_gt := num_cmp Z.gtb.

(** [v in zs] for a list [zs] of int literals: [==] never raises. *)
Definition in_ints (v : value) (zs : list Z) : bool :=
  match as_num v with
  | Some z => bool_decide (z ∈ zs)
  | None => false
  end.

(** [for x in v]: the elements a [for] loop visits.  The keys of a dict come
    in insertion order; the loops of this program index each
    element with a string, which raises on a key whatever the order. *)
Definition py_iter (v : value) : outcome (list value) :=
  match v with
  | VList l => Ret l
  | VDict d => Ret (VStr <$> d.*1)
  | VStr s => Ret ((λ c, VStr (String c EmptyString)) <$> String.list_ascii_of_string s)
  | VBinary b => Ret ((λ x, VInt (Z.of_N (Byte.to_N x))) <$> b)
  | VInt _ | VBool _ => Raise TypeError
  end.

(** [{} in v]: membership by [==] in a list; a dict must hash [{}], a string
    wants a string, a number is not a container, a bytes object wants an
    int. *)
Definition empty_dict_in (v : value) : outcome bool :=
  match v with
  | VList l => Ret (existsb is_empty_dict l)
  | _ => Raise TypeError
  end.

(** [s.lower().replace(" ", "-")] on ASCII names. *)
Definition lower_ascii (c : ascii) : ascii :=
  let n := nat_of_ascii c in
  if (65 <=? n)%nat && (n <=? 90)%nat then ascii_of_nat (n + 32) else c.

Fixpoint slug (s : string) : string :=
  match s with
  | EmptyString => EmptyString
  | String c s' =>
      String (if Ascii.eqb c " " then "-"%char else lower_ascii c) (slug s')
  end.

(** [str(v)].  Python's [repr] of lists, dicts and bytes is not modelled:
    it is the parameter [py_repr]. *)
Definition py_str (py_repr : value → string) (v : value) : string :=
  match v with
  | VInt z => pretty z
  | VBool b => if b then "True" else "False"
  | VStr s => s
  | _ => py_repr v
  end.

(** [tbl[v]] for a table with int keys. *)
Definition int_key_lookup (tbl : gmap Z string) (v : value) : outcome string :=
  match v with
  | VList _ | VDict _ => Raise TypeError  (* unhashable *)
  | _ =>
      match as_num v with
      | Some z =>
          match tbl !! z with
          | Some s => Ret s
          | None => Raise (KeyError v)
          end
      | None => Raise (KeyError v)
      end
  end.

(** A loop [for x in l: s = f(s, x)] that stops at the first exception. *)
Fixpoint ofoldl {S A : Type} (f : S → A → outcome S) (s : S) (l : list A) : outcome S :=
  match l with
  | [] => Ret s
  | x :: l' => s' <~ f s x ;; ofoldl f s' l'
  end.

(** [[f(x) for x in l]], evaluated left to right. *)
Fixpoint omap {A B : Type} (f : A → outcome B) (l : list A) : outcome (list B) :=
  match l with
  | [] => Ret []
  | x :: l' => y <~ f x ;; ys <~ omap f l' ;; Ret (y :: ys)
  end.

(** ** Dates *)

(** The fields of a [datetime] that [strftime("%Y%m%d%H")] prints. *)
Record civil : Type := Civil { year : Z; month : Z; day : Z; hour : Z }.

(** [int(c.strftime("%Y%m%d%H"))]: month, day and hour are printed on two
    digits, so the digits of the year are followed by six digits. *)
Definition strftime_YmdH_int (c : civil) : Z :=
  year c * 1000000 + month c * 10000 + day c * 100 + hour c.

(** The proleptic Gregorian date of a day number counted from 1970-01-01. *)
Definition civil_from_days (n : Z) : Z * Z * Z :=
  let z := n + 719468 in
  let era := z / 146097 in
  let doe := z - era * 146097 in
  let yoe := (doe - doe / 1460 + doe / 36524 - doe / 146096) / 365 in
  let doy := doe - (365 * yoe + yoe / 4 - yoe / 100) in
  let mp := (5 * doy + 2) / 153 in
  let d := doy - (153 * mp + 2) / 5 + 1 in
  let m := if mp <? 10 then mp + 3 else mp - 9 in
  let y := yoe + era * 400 in
  (if m <=? 2 then y + 1 else y, m, d).

(** [datetime.utcfromtimestamp(t)] for an integer [t]; years 1 to 9999. *)
Definition utcfromtimestamp (t : Z) : option civil :=
  if (-62135596800 <=? t) && (t <=? 253402300799) then
    let '(y, m, d) := civil_from_days (t / 86400) in
    Some (Civil y m d ((t mod 86400) / 3600))
  else None.

Definition py_utcfromtimestamp (v : value) : outcome civil :=
  match as_num v with
  | Some t =>
      match utcfromtimestamp t with
      | Some c => Ret c
      | None => Raise OverflowError
      end
  | None => Raise TypeError
  end.

(** ** The network *)

Inductive request : Type :=
| GetMatchDetails (match_id : value)
| GetMatchHistory (skill : Z) (start_at_match_id : Z) (hero_id : Z).

(** [text] is the body as [json.loads] reads it, [None] when it is not JSON. *)
Record response : Type := Response { status_code : Z; text : option value }.

Inductive reply : Type :=
| Raises (e : exn)
| Responds (r : response).

(** ** The binary player schema ([dota_pb2], generated code) *)

Record pb_ability : Type := PbAbility {
  ab_ability : value; ab_time : value; ab_level : value
}.

Record pb_additional_unit : Type := PbUnit {
  au_unitname : value; au_slots : list (string * value)
}.

Record pb_player : Type := PbPlayer {
  pl_fields : list (string * value);
  pl_ability_upgrades : list pb_ability;
  pl_additional_units : list pb_additional_unit
}.

(** ** Constants of [fetch.py] *)

Definition MATCHES_PER_HERO : Z := 10.

Definition PLAYER_FIELDS : list string :=
  [ "account_id"; "player_slot"; "hero_id";
    "item_0"; "item_1"; "item_2"; "item_3"; "item_4"; "item_5";
    "backpack_0"; "backpack_1"; "backpack_2";
    "kills"; "deaths"; "assists"; "leaver_status"; "last_hits"; "denies";
    "gold_per_min"; "xp_per_min"; "level"; "hero_damage"; "tower_damage";
    "hero_healing"; "gold"; "gold_spent"; "scaled_hero_damage";
    "scaled_tower_damage"; "scaled_hero_healing" ]%string.

Definition SLEEP_SCHEDULE : list Q :=
  [0.05; 0.1; 1.0; 10; 30; 60; 300; 500; 1000; 2000; 6000]%Q.

Definition ALLOWED_MODES : list string :=
  [ "All Pick"; "Captains Mode"; "Random Draft"; "Single Draft";
    "All Random"; "Least Played" ]%string.

Definition BAD_LOBBIES : list Z := [-1; 4; 8].

Definition DROPPED_FIELDS : list string :=
  [ "pre_game_duration"; "positive_votes"; "negative_votes"; "match_seq_num";
    "tower_status_radiant"; "tower_status_dire";
    "barracks_status_radiant"; "barracks_status_dire" ]%string.

Definition ITEM_LABELS : list string :=
  [ "item_0"; "item_1"; "item_2"; "item_3"; "item_4"; "item_5" ]%string.
Definition BACKPACK_LABELS : list string :=
  [ "backpack_0"; "backpack_1"; "backpack_2" ]%string.

(** The local variables of the retry loop of [process_match]. *)
Record retry_vars : Type := RetryVars {
  fetched : bool; count : nat; rv : option response
}.

(** The local variables of the player loop of [process_match]. *)
Record loop_vars : Type := LoopVars {
  lv_match : dict;
  radiant_heroes : list value;
  dire_heroes : list value;
  new_players : list pb_player
}.

(** The local variables of the page loop of [fetch_matches]; [ms] is
    [None] while the name is unbound. *)
Record page_vars : Type := PageVars {
  start_at_match_id : Z; counter : Z; ms : option (list value)
}.

(** ** The environment

    What the program takes from its surroundings and from modules of the
    repository that are not part of [fetch.py]. *)
Record env : Type := Env {
  (** The upstream API: the reply to the [n]-th call of [requests.get]. *)
  env_upstream : nat → request → reply;
  (** [datetime.fromtimestamp], in the local time zone of the process. *)
  env_fromtimestamp : Z → option civil;
  (** The value of the [n]-th call of [datetime.utcnow], in epoch seconds. *)
  env_utcnow : nat → Z;
  (** The tables [meta.MODE_ENUM] and [meta.HERO_DICT]. *)
  env_MODE_ENUM : gmap Z string;
  env_HERO_DICT : gmap Z string;
  (** [setattr] on a message of [dota_pb2]: the exception it raises for the
      message, field and value, if any. *)
  env_pb_rejects : string → string → value → option exn;
  (** [SerializeToString] of the [players] message, and [lzma.compress]. *)
  env_SerializeToString : list pb_player → list byte;
  env_lzma_compress : list byte → list byte;
  (** Whether the [n]-th call of [put_item] on the table succeeds. *)
  env_put_item_ok : nat → value → bool;
  (** [repr] of containers, for [str]. *)
  env_py_repr : value → string
}.

(** ** The scraper *)

Section Scraper.

Variable E : env.

#[local] Abbreviation upstream := (env_upstream E).
#[local] Abbreviation fromtimestamp := (env_fromtimestamp E).
#[local] Abbreviation utcnow := (env_utcnow E).
#[local] Abbreviation MODE_ENUM := (env_MODE_ENUM E).
#[local] Abbreviation HERO_DICT := (env_HERO_DICT E).
#[local] Abbreviation pb_rejects := (env_pb_rejects E).
#[local] Abbreviation SerializeToString := (env_SerializeToString E).
#[local] Abbreviation lzma_compress := (env_lzma_compress E).
#[local] Abbreviation put_item_ok := (env_put_item_ok E).
#[local] Abbreviation py_repr := (env_py_repr E).

(** *** Effects *)

Definition time_sleep (d : Q) : M unit :=
  fun w => (Ret tt, set_slept (λ l, l ++ [d]) w).

Definition requests_get (q : request) : M response :=
  fun w =>
    let w' := set_requests_made S w in
    match upstream (requests_made w) q with
    | Raises e => (Raise e, w')
    | Responds r => (Ret r, w')
    end.

(** [this_aws.dota_table.put_item(Item=item)], with the handler of lines
    264-270, which re-raises. *)
Definition put_item (item : value) : M unit :=
  fun w =>
    let w' := set_put_calls S w in
    if put_item_ok (put_calls w) item
    then (Ret tt, set_dota_table (λ t, t ++ [item]) w')
    else (Raise StorageError, w').

(** [int((dt.datetime.utcnow()-dt.datetime(1970,1,1)).total_seconds())] *)
Definition now_epoch : M Z :=
  fun w => (Ret (utcnow (clock_reads w)), set_clock_reads S w).

Definition pb_set (msg field : string) (v : value) : outcome unit :=
  match pb_rejects msg field v with
  | Some e => Raise e
  | None => Ret tt
  end.

Definition py_fromtimestamp (v : value) : outcome civil :=
  match as_num v with
  | Some t =>
      match fromtimestamp t with
      | Some c => Ret c
      | None => Raise OverflowError
      end
  | None => Raise TypeError
  end.

(** *** [process_match], lines 114-125: the retry loop *)

Definition attempt (match_id : value) (s : retry_vars) : M retry_vars :=
  d <- lift (match SLEEP_SCHEDULE !! count s with
             | Some d => Ret d
             | None => Raise IndexError
             end) ;;
  _ <- time_sleep d ;;
  s1 <- try_except
          (r <- requests_get (GetMatchDetails match_id) ;;
           ret (RetryVars (if status_code r =? 200 then true else fetched s)
                          (count s) (Some r)))
          (ret s) ;;
  ret (RetryVars (fetched s1) (S (count s1)) (rv s1)).

Definition retry_cond (s : retry_vars) : bool :=
  negb (fetched s) && (count s <? 10)%nat.

Definition fetch_details (match_id : value) : M retry_vars :=
  while_ 10 retry_cond (attempt match_id) (RetryVars false 0 None).

(** *** Lines 134-140: the match record *)

Definition load_match (r : response) (skill : Z) : outcome (dict) :=
  j <~ match text r with
       | Some j => Ret j
       | None => Raise JSONDecodeError
       end ;;
  res <~ getitem j "result" ;;
  m <~ match res with
       | VDict d => Ret (<["api_skill" := VInt skill]> d)
       | _ => Raise TypeError
       end ;;
  st <~ dict_get m "start_time" ;;
  c <~ py_fromtimestamp st ;;
  Ret (<["batch_time" := VInt (strftime_YmdH_int c)]> m).

(** *** Lines 142-147: the dedup cache *)

Definition match_key (m : dict) : outcome string :=
  bt <~ dict_get m "batch_time" ;;
  mid <~ dict_get m "match_id" ;;
  Ret (py_str py_repr bt +:+ "_" +:+ py_str py_repr mid).

Definition dedup (m : dict) : M (flow unit) :=
  key <- lift (match_key m) ;;
  fun w =>
    match batch_match w !! key with
    | Some _ => (Ret (Return (VInt (-32))), w)
    | None =>
        match dict_get m "start_time" with
        | Ret st => (Ret (Next tt), set_batch_match (insert key st) w)
        | Raise e => (Raise e, w)
        end
    end.

(** *** Lines 154-162: the game mode *)

Definition mode_name (m : dict) : outcome string :=
  gm <~ dict_get m "game_mode" ;;
  int_key_lookup MODE_ENUM gm.

(** The handler formats its message and then evaluates
    [exceptions.ValueError]; the module [exceptions] is not imported. *)
Definition check_mode (m : dict) : outcome (flow unit) :=
  match mode_name m with
  | Ret name =>
      if bool_decide (name ∈ ALLOWED_MODES) then Ret (Next tt)
      else Ret (Return (VInt (-1)))
  | Raise _ =>
      _ <~ dict_get m "game_mode" ;;
      _ <~ dict_get m "match_id" ;;
      Raise (NameError "exceptions")
  end.

(** *** Lines 183-231: the body of the player loop *)

(** Lines 185-189, under [try ... except: pass]. *)
Definition leaver_update (m : dict) (p : value) : dict :=
  match
    (ls <~ getitem p "leaver_status" ;;
     c <~ dict_get m "calc_leaver" ;;
     b <~ py_gt ls c ;;
     if b : bool then
       ls' <~ getitem p "leaver_status" ;;
       Ret (<["calc_leaver" := ls']> m)
     else Ret m)
  with
  | Ret m' => m'
  | Raise _ => m
  end.

(** Lines 202-204: [setattr(pb2_player,t,p[t]); p.pop(t)] for each field. *)
Fixpoint copy_fields (ts : list string) (p : dict)
    (acc : list (string * value)) : outcome (list (string * value) * dict) :=
  match ts with
  | [] => Ret (acc, p)
  | t :: ts' =>
      v <~ dict_get p t ;;
      _ <~ pb_set "player" t v ;;
      p' <~ dict_pop p t ;;
      copy_fields ts' p' (acc ++ [(t, v)])
  end.

(** Lines 208-212. *)
Definition encode_ability (a : value) : outcome pb_ability :=
  x <~ getitem a "ability" ;;
  _ <~ pb_set "ability" "ability" x ;;
  t <~ getitem a "time" ;;
  _ <~ pb_set "ability" "time" t ;;
  l <~ getitem a "level" ;;
  _ <~ pb_set "ability" "level" l ;;
  Ret (PbAbility x t l).

(** Lines 223-224 and 226-227: [setattr(au,label,unit[label])]. *)
Definition copy_slot (unit : value) (label : string) : outcome (string * value) :=
  v <~ getitem unit label ;;
  _ <~ pb_set "additional_unit" label v ;;
  Ret (label, v).

(** Lines 220-228. *)
Definition encode_unit (unit : value) : outcome pb_additional_unit :=
  n <~ getitem unit "unitname" ;;
  _ <~ pb_set "additional_unit" "unitname" n ;;
  items <~ omap (copy_slot unit) ITEM_LABELS ;;
  backpack <~ omap (copy_slot unit) BACKPACK_LABELS ;;
  Ret (PbUnit n (items ++ backpack)).

(** Lines 205-213 and 216-229: an optional list of sub-records,
    [if name in p: for x in p.pop(name): ...]. *)
Definition encode_optional {A : Type} (name : string) (enc : value → outcome A)
    (p : dict) : outcome (list A * dict) :=
  match p !! name with
  | Some v =>
      xs <~ py_iter v ;;
      ys <~ omap enc xs ;;
      Ret (ys, delete name p)
  | None => Ret ([], p)
  end.

(** What one player contributes, lines 191-231: the side (slots 0 to 4 are
    radiant), the hero id, the key of the hero flag, and the record. *)
Definition player_body (p : value) : outcome (bool * value * string * pb_player) :=
  player_slot <~ getitem p "player_slot" ;;
  rad <~ py_le player_slot (VInt 4) ;;
  hero <~ getitem p "hero_id" ;;
  hero' <~ getitem p "hero_id" ;;
  name <~ int_key_lookup HERO_DICT hero' ;;
  let k := "hero-" +:+ slug name in
  match p with
  | VDict d =>
      fp <~ copy_fields PLAYER_FIELDS d [] ;;
      ab <~ encode_optional "ability_upgrades" encode_ability fp.2 ;;
      au <~ encode_optional "additional_units" encode_unit ab.2 ;;
      Ret (rad, hero, k, PbPlayer fp.1 ab.1 au.1)
  | _ => Raise TypeError
  end.

Definition player_step (s : loop_vars) (p : value) : outcome loop_vars :=
  let m := leaver_update (lv_match s) p in
  r <~ player_body p ;;
  let '(rad, hero, k, pb) := r in
  Ret (LoopVars (<[k := VBool true]> m)
                (if rad : bool then radiant_heroes s ++ [hero] else radiant_heroes s)
                (if rad : bool then dire_heroes s else dire_heroes s ++ [hero])
                (new_players s ++ [pb])).

(** *** Lines 151-235: the filter, with the player loop inside it *)

Definition filter_match (m : dict) : outcome (flow loop_vars) :=
  f <~ check_mode m ;;
  match f with
  | Return v => Ret (Return v)
  | Next _ =>
      d <~ dict_get m "duration" ;;
      short <~ py_lt d (VInt 1200) ;;
      if short : bool then Ret (Return (VInt (-2))) else
      l <~ dict_get m "lobby_type" ;;
      if in_ints l BAD_LOBBIES then Ret (Return (VInt (-3))) else
      let m := <["calc_leaver" := VInt 0]> m in
      players <~ dict_get m "players" ;;
      missing <~ empty_dict_in players ;;
      if missing : bool then Ret (Return (VInt (-4))) else
      ps <~ py_iter players ;;
      s <~ ofoldl player_step (LoopVars m [] [] []) ps ;;
      c <~ dict_get (lv_match s) "calc_leaver" ;;
      leaver <~ py_gt c (VInt 1) ;;
      if leaver : bool then Ret (Return (VInt (-43))) else Ret (Next s)
  end.

(** *** Lines 240-273: the write *)

Definition pop_if_present (k : string) (m : dict) : dict :=
  if bool_decide (is_Some (m !! k)) then delete k m else m.

Definition persist (s : loop_vars) : M value :=
  m <- lift (ofoldl dict_pop (lv_match s) DROPPED_FIELDS) ;;
  let m := pop_if_present "radiant_name" m in
  let m := pop_if_present "dire_name" m in
  let btxt := lzma_compress (SerializeToString (new_players s)) in
  let m := <["players" := VBinary btxt]> m in
  _ <- put_item (VDict m) ;;
  lift (dict_get m "batch_time").

(** *** [process_match] *)

(** Lines 142-273, on the match record of line 140. *)
Definition ingest (m : dict) : M value :=
  f <- dedup m ;;
  match f with
  | Return v => ret v
  | Next _ =>
      _ <- lift (st <~ dict_get m "start_time" ;; py_utcfromtimestamp st) ;;
      f <- lift (filter_match m) ;;
      match f with
      | Return v => ret v
      | Next s => persist s
      end
  end.

Definition process_match (match_id : value) (hero skill : Z) (counter : Z) : M value :=
  s <- fetch_details match_id ;;
  r <- lift (match rv s with
             | Some r => Ret r
             | None => Raise (UnboundLocalError "rv")
             end) ;;
  if negb (status_code r =? 200) then ret (VInt (-44)) else
  m <- lift (load_match r skill) ;;
  ingest m.

(** *** [fetch_matches] *)

(** Lines 296-305: the ledger update for one stored match.  [SELECT ...
    WHERE batch_time=?] with [fetchone] reads the first matching row;
    [UPDATE ... WHERE batch_time=?] rewrites every matching row. *)
Definition upsert_stats (now bt : Z) (rows : list stats_row) : list stats_row :=
  match List.find (λ r, row_batch_time r =? bt) rows with
  | None => rows ++ [Row bt now 1 0]
  | Some row =>
      (λ r, if row_batch_time r =? bt
            then Row (row_batch_time r) now (row_fetch row + 1) (row_pair r)
            else r) <$> rows
  end.

Definition record_success (bt : Z) : M unit :=
  now <- now_epoch ;;
  fun w => (Ret tt, set_workflow_stats (upsert_stats now bt) w).

(** A loop [for x in l] whose body has effects. *)
Fixpoint mfoldl {S A : Type} (f : S → A → M S) (s : S) (l : list A) : M S :=
  match l with
  | [] => ret s
  | x :: l' => s' <- f s x ;; mfoldl f s' l'
  end.

(** Lines 290-307: one match of a page; the state is [(ms, counter)]. *)
Definition page_entry (hero skill : Z) (s : list value * Z) (entry : value)
    : M (list value * Z) :=
  mid <- lift (getitem entry "match_id") ;;
  let ms := s.1 ++ [mid] in
  mid' <- lift (getitem entry "match_id") ;;
  batch_time <- process_match mid' hero skill s.2 ;;
  stored <- lift (py_gt batch_time (VInt 0)) ;;
  _ <- (if stored : bool then
          match as_num batch_time with
          | Some bt => record_success bt
          | None => raise TypeError
          end
        else ret tt) ;;
  ret (ms, s.2 + 1).

(** [min(ms)-1] *)
Definition min_minus_one (ms : option (list value)) : outcome Z :=
  match ms with
  | None => Raise (UnboundLocalError "ms")
  | Some [] => Raise ValueError
  | Some (x :: l) =>
      match as_num x, mapM as_num l with
      | Some z, Some zs => Ret (foldl Z.min z zs - 1)
      | _, _ => Raise TypeError
      end
  end.

(** Lines 282-310: one turn of the page loop. *)
Definition page_step (hero skill : Z) (s : page_vars) : M page_vars :=
  r <- requests_get (GetMatchHistory skill (start_at_match_id s) hero) ;;
  if status_code r =? 200 then
    j <- lift (jj <~ match text r with
                     | Some jj => Ret jj
                     | None => Raise JSONDecodeError
                     end ;;
               getitem jj "result") ;;
    n <- lift (getitem j "num_results") ;;
    some <- lift (py_gt n (VInt 0)) ;;
    s1 <- (if some : bool then
             entries <- lift (x <~ getitem j "matches" ;; py_iter x) ;;
             r <- mfoldl (page_entry hero skill) ([], counter s) entries ;;
             ret (PageVars (start_at_match_id s) r.2 (Some r.1))
           else ret s) ;;
    next <- lift (min_minus_one (ms s1)) ;;
    ret (PageVars next (counter s1) (ms s1))
  else ret s.

Definition page_cond (s : page_vars) : bool := counter s <=? MATCHES_PER_HERO.

(** Lines 278-310, with a budget of pages. *)
Definition fetch_loop (hero skill : Z) (fuel : nat) : M page_vars :=
  while_ fuel page_cond (page_step hero skill) (PageVars 9999999999 0 None).

(** The closing [print] of the rate is floating point and not modelled. *)
Definition fetch_matches (hero skill : Z) (fuel : nat) : M unit :=
  _ <- fetch_loop hero skill fuel ;;
  ret tt.

End Scraper.

(** ** A concrete environment

    Tables, a time zone and an upstream on which the definitions above can
    be run.  The tables hold a few entries of the game's public
    enumerations; the time zone is UTC; the schema accepts ints in every
    field but [unitname], which takes a string. *)

Definition example_MODE_ENUM : gmap Z string :=
  list_to_map
    [ (1, "All Pick"); (2, "Captains Mode"); (3, "Random Draft");
      (4, "Single Draft"); (5, "All Random"); (12, "Least Played");
      (18, "Ability Draft"); (23, "Turbo") ]%string.

Definition example_HERO_DICT : gmap Z string :=
  list_to_map
    [ (1, "Anti-Mage"); (2, "Axe"); (3, "Bane"); (4, "Bloodseeker");
      (5, "Crystal Maiden"); (6, "Drow Ranger"); (7, "Earthshaker");
      (8, "Juggernaut"); (9, "Mirana"); (10, "Morphling");
      (79, "Shadow Demon") ]%string.

Definition example_pb_rejects (msg field : string) (v : value) : option exn :=
  match v with
  | VInt _ | VBool _ => if String.eqb field "unitname" then Some TypeError else None
  | VStr _ => if String.eqb field "unitname" then None else Some TypeError
  | _ => Some TypeError
  end.

Definition example_serialize (ps : list pb_player) : list byte :=
  (λ _, x0a) <$> ps.

Definition example_compress (b : list byte) : list byte := b.

Definition example_repr (v : value) : string := "<object>".

Definition empty_world : world := World ∅ [] 0 [] 0 [] 0.

(** A player object with the 29 fields, all 0 but those given. *)
Definition example_player (slot hero leaver : Z) : value :=
  VDict (<["player_slot" := VInt slot]>
         (<["hero_id" := VInt hero]>
          (<["leaver_status" := VInt leaver]>
           ((λ t, (t, VInt 0)) <$> PLAYER_FIELDS)))).

Definition ten_players : list value :=
  [ example_player 0 1 0; example_player 1 2 0; example_player 2 3 0;
    example_player 3 4 0; example_player 4 5 0;
    example_player 128 6 0; example_player 129 7 0; example_player 130 8 0;
    example_player 131 9 0; example_player 132 10 1 ].

(** The [result] object of a match-details body. *)
Definition example_result (match_id start_time duration lobby_type game_mode : Z)
    (players : list value) : dict :=
    [ ("match_id", VInt match_id); ("start_time", VInt start_time);
      ("duration", VInt duration); ("lobby_type", VInt lobby_type);
      ("game_mode", VInt game_mode); ("players", VList players);
      ("radiant_win", VBool true);
      ("pre_game_duration", VInt 90); ("positive_votes", VInt 0);
      ("negative_votes", VInt 0); ("match_seq_num", VInt 5000);
      ("tower_status_radiant", VInt 2047); ("tower_status_dire", VInt 0);
      ("barracks_status_radiant", VInt 63); ("barracks_status_dire", VInt 0)
    ]%string.

(** A match-details body. *)
Definition example_match (match_id start_time duration lobby_type game_mode : Z)
    (players : list value) : value :=
  VDict [ ("result",
           VDict (example_result match_id start_time duration lobby_type
                                 game_mode players)) ]%string.

(** A match-history body with the given ids. *)
Definition example_page (ids : list Z) : value :=
  VDict [ ("result", VDict
    [ ("num_results", VInt (Z.of_nat (length ids)));
      ("results_remaining", VInt 100);
      ("matches", VList ((λ i, VDict [ ("match_id", VInt i) ]) <$> ids))
    ]) ]%string.

(** 2024-01-01 12:00:00 UTC *)
Definition noon_2024_01_01 : Z := 1704110400.

Definition example_env (up : nat → request → reply) : env :=
  Env up utcfromtimestamp (λ n, 1704200000 + Z.of_nat n)
      example_MODE_ENUM example_HERO_DICT example_pb_rejects
      example_serialize example_compress (λ _ _, true) example_repr.

(** An upstream that answers every request with the same match details. *)
Definition always (body : value) : nat → request → reply :=
  λ _ _, Responds (Response 200 (Some body)).

(** Match 123 of the scenarios: 2024-01-01 12:00 UTC, 30 minutes, public
    lobby, All Pick, ten players. *)
Definition env_good : env :=
  example_env (always (example_match 123 noon_2024_01_01 1800 0 1 ten_players)).
(** The same match with a game mode that is not in the table. *)
Definition env_unmapped : env :=
  example_env (always (example_match 123 noon_2024_01_01 1800 0 99 ten_players)).
(** The same match with a game mode whose name is not one of the six. *)
Definition env_ability_draft : env :=
  example_env (always (example_match 123 noon_2024_01_01 1800 0 18 ten_players)).
(** An upstream that cannot be reached. *)
Definition env_down : env := example_env (λ _ _, Raises ConnectionError).

(** An upstream whose history pages list eleven matches, all of them ten
    minutes long. *)
Definition short_ids : list Z := [111; 110; 109; 108; 107; 106; 105; 104; 103; 102; 101].

Definition env_short_pages : env :=
  example_env (λ _ q,
    match q with
    | GetMatchHistory _ _ _ => Responds (Response 200 (Some (example_page short_ids)))
    | GetMatchDetails (VInt i) =>
        Responds (Response 200 (Some (example_match i noon_2024_01_01 600 0 1 ten_players)))
    | GetMatchDetails _ => Raises ConnectionError
    end).

(** ** Notions used in the statements *)

(** The two worlds agree on everything but the request counter and the
    sleep log. *)
Definition same_store (w w' : world) : Prop :=
  batch_match w' = batch_match w ∧ dota_table w' = dota_table w ∧
  put_calls w' = put_calls w ∧ workflow_stats w' = workflow_stats w ∧
  clock_reads w' = clock_reads w.

(** The retry loop keeps [fetched] equal to "the last response had status
    200". *)
Definition retry_inv (s : retry_vars) : Prop :=
  match rv s with
  | Some r => fetched s = (status_code r =? 200)
  | None => fetched s = false
  end.

(** From world [w] the retry loop of [process_match] ends in world [w1]
    with a response of status 200 whose body yields the match record [m]
    of line 140. *)
Definition delivers (E : env) (match_id : value) (skill : Z) (w : world)
    (m : dict) (w1 : world) : Prop :=
  ∃ s r, fetch_details E match_id w = (Ret s, w1) ∧ rv s = Some r ∧
         status_code r = 200 ∧ load_match E r skill = Ret m.

(** The numeric [leaver_status] of a player object, if it has one. *)
Definition leaver_status_of (p : value) : option Z :=
  match getitem p "leaver_status" with
  | Ret v => as_num v
  | Raise _ => None
  end.

(** The ledger entry of a batch time: (updated_epoch, fetch). *)
Definition ledger_entry (bt : Z) (rows : list stats_row) : option (Z * Z) :=
  (λ r, (row_updated_epoch r, row_fetch r)) <$>
    List.find (λ r, row_batch_time r =? bt) rows.

(** [n] ledger updates for the same batch time, one after the other. *)
Fixpoint record_many (E : env) (n : nat) (bt : Z) : M unit :=
  match n with
  | O => ret tt
  | S n' => _ <- record_success E bt ;; record_many E n' bt
  end.

(** The numeric value of [match['calc_leaver']]. *)
Definition calc_num (m : dict) : option Z :=
  m !! "calc_leaver" ≫= as_num.

(** The largest of [y] and the numeric leaver statuses of the players. *)
Definition max_leaver (y : Z) (ps : list value) : Z :=
  foldl (λ acc p, match leaver_status_of p with
                  | Some x => Z.max x acc
                  | None => acc
                  end) y ps.



(** ** Properties *)

Section Properties.

Variable E : env.

(** *** The monads *)

Lemma bind_Ret {A B : Type} (c : M A) (k : A → M B) w a w1 :
  c w = (Ret a, w1) → bind c k w = k a w1.
Proof. intros H. unfold bind. by rewrite H. Qed.

Lemma bind_Raise {A B : Type} (c : M A) (k : A → M B) w e w1 :
  c w = (Raise e, w1) → bind c k w = (Raise e, w1).
Proof. intros H. unfold bind. by rewrite H. Qed.

Lemma bind_inv {A B : Type} (c : M A) (k : A → M B) w o w' :
  bind c k w = (o, w') →
  (∃ a w1, c w = (Ret a, w1) ∧ k a w1 = (o, w')) ∨
  (∃ e, c w = (Raise e, w') ∧ o = Raise e).
Proof.
  unfold bind. destruct (c w) as [[a|e] w1]; intros H.
  - left. by exists a, w1.
  - right. exists e. by inversion H.
Qed.

Lemma bind_lift {A B : Type} (o : outcome A) (k : A → M B) w :
  bind (lift o) k w = match o with
                      | Ret a => k a w
                      | Raise e => (Raise e, w)
                      end.
Proof. unfold bind, lift. by destruct o. Qed.

Lemma lift_inv {A : Type} (o : outcome A) w o' w' :
  lift o w = (o', w') → o' = o ∧ w' = w.
Proof. unfold lift. by inversion 1. Qed.

Lemma same_store_refl w : same_store w w.
Proof. by repeat split. Qed.

Lemma same_store_trans w1 w2 w3 :
  same_store w1 w2 → same_store w2 w3 → same_store w1 w3.
Proof.
  unfold same_store. intros (?&?&?&?&?) (?&?&?&?&?).
  repeat split; congruence.
Qed.

(** *** Dicts *)

Lemma dict_lookup_insert_eq (d : dict) k v : <[k := v]> d !! k = Some v.
Proof.
  unfold insert, lookup, dict_Insert, dict_Lookup.
  induction d as [|[k' v'] d IH]; cbn.
  - by rewrite String.eqb_refl.
  - destruct (String.eqb_spec k k') as [->|Hne]; cbn.
    + by rewrite String.eqb_refl.
    + by rewrite (proj2 (String.eqb_neq _ _) Hne).
Qed.

Lemma dict_lookup_insert_ne (d : dict) k k' v :
  k ≠ k' → <[k := v]> d !! k' = d !! k'.
Proof.
  unfold insert, lookup, dict_Insert, dict_Lookup. intros Hne.
  induction d as [|[k0 v0] d IH]; cbn.
  - by rewrite (proj2 (String.eqb_neq k' k)).
  - destruct (String.eqb_spec k k0) as [->|Hne0]; cbn.
    + by rewrite !(proj2 (String.eqb_neq k' k0)).
    + by rewrite IH.
Qed.

(** *** The retry loop *)

Lemma attempt_spec mid s w :
  (count s < 11)%nat →
  ∃ d, SLEEP_SCHEDULE !! count s = Some d ∧
    attempt E mid s w =
      (Ret match env_upstream E (requests_made w) (GetMatchDetails mid) with
           | Raises _ => RetryVars (fetched s) (S (count s)) (rv s)
           | Responds r =>
               RetryVars (if status_code r =? 200 then true else fetched s)
                         (S (count s)) (Some r)
           end,
       set_requests_made S (set_slept (λ l, l ++ [d]) w)).
Proof.
  intros Hlt.
  destruct (SLEEP_SCHEDULE !! count s) as [d|] eqn:Hd.
  - exists d. split; [done|].
    unfold attempt, bind, lift, time_sleep, try_except, requests_get, ret.
    rewrite Hd. cbn [requests_made set_slept].
    by destruct (env_upstream E (requests_made w) (GetMatchDetails mid)).
  - apply lookup_ge_None in Hd. cbn in Hd. lia.
Qed.

Lemma retry_loop_spec mid fuel : ∀ s w,
  (count s + fuel = 10)%nat → retry_inv s →
  ∃ s' w',
    while_ fuel retry_cond (attempt E mid) s w = (Ret s', w') ∧
    same_store w w' ∧ retry_inv s' ∧
    (count s ≤ count s' ≤ 10)%nat ∧
    (fetched s' = true ∨ count s' = 10%nat) ∧
    requests_made w' = (requests_made w + (count s' - count s))%nat ∧
    slept w' = slept w ++ take (count s' - count s) (drop (count s) SLEEP_SCHEDULE).
Proof.
  induction fuel as [|fuel IH]; intros s w Hc Hinv.
  - exists s, w. cbn [while_]. unfold retry_cond.
    assert (count s = 10%nat) as Hs by lia.
    rewrite Hs. rewrite andb_false_r.
    repeat split; try done; try lia; try (by right).
    by rewrite Nat.sub_diag, take_0, app_nil_r.
  - cbn [while_]. destruct (retry_cond s) eqn:Hcond.
    + destruct (attempt_spec mid s w) as (d & Hd & Hat); [lia|].
      erewrite bind_Ret by exact Hat.
      set (s1 := match env_upstream E (requests_made w) (GetMatchDetails mid) with
                 | Raises _ => _ | Responds r => _ end) in *.
      assert (count s1 = S (count s)) as Hc1 by (subst s1; by case_match).
      assert (retry_inv s1) as Hinv1.
      { unfold retry_cond in Hcond. apply andb_true_iff in Hcond as [Hf _].
        apply negb_true_iff in Hf. subst s1. case_match; [done|].
        unfold retry_inv. cbn. rewrite Hf. by case_match. }
      destruct (IH s1 (set_requests_made S (set_slept (λ l, l ++ [d]) w)))
        as (s' & w' & Hrun & Hst & Hinv' & Hcnt & Hend & Hreq & Hsl); [lia|done|].
      exists s', w'. split; [done|]. split.
      { destruct Hst as (?&?&?&?&?). by repeat split. }
      split; [done|]. split; [lia|]. split; [done|]. split.
      * rewrite Hreq. cbn. lia.
      * rewrite Hsl. cbn [slept set_requests_made set_slept].
        rewrite Hc1, <- app_assoc. f_equal.
        replace (count s' - count s)%nat with (S (count s' - S (count s))) by lia.
        rewrite (drop_S _ _ _ Hd). done.
    + exists s, w. unfold retry_cond in Hcond.
      assert (fetched s = true ∨ count s = 10%nat) as Hend.
      { apply andb_false_iff in Hcond as [Hf|Hf].
        - left. by apply negb_false_iff in Hf.
        - right. apply Nat.ltb_ge in Hf. lia. }
      repeat split; try done; try lia.
      by rewrite Nat.sub_diag, take_0, app_nil_r.
Qed.

(** The retry loop always ends: within its ten turns, without touching
    the cache, the table or the ledger, having slept along a prefix of the
    schedule and made one request per sleep. *)
Lemma fetch_details_spec mid w :
  ∃ s w',
    fetch_details E mid w = (Ret s, w') ∧ same_store w w' ∧ retry_inv s ∧
    (count s ≤ 10)%nat ∧ (fetched s = true ∨ count s = 10%nat) ∧
    requests_made w' = (requests_made w + count s)%nat ∧
    slept w' = slept w ++ take (count s) SLEEP_SCHEDULE.
Proof.
  destruct (retry_loop_spec mid 10 (RetryVars false 0 None) w)
    as (s & w' & Hrun & Hst & Hinv & Hcnt & Hend & Hreq & Hsl); [done|done|].
  exists s, w'. cbn [count] in *.
  rewrite Nat.sub_0_r in Hreq. rewrite Nat.sub_0_r in Hsl.
  split; [done|]. split; [done|]. split; [done|]. split; [lia|].
  split; [done|]. split; [done|]. exact Hsl.
Qed.

Lemma retry_loop_all_raise mid fuel : ∀ s w,
  (count s + fuel = 10)%nat → fetched s = false →
  (∀ k, (k < fuel)%nat →
     ∃ e, env_upstream E (requests_made w + k) (GetMatchDetails mid) = Raises e) →
  ∃ w', while_ fuel retry_cond (attempt E mid) s w
          = (Ret (RetryVars false 10 (rv s)), w').
Proof.
  induction fuel as [|fuel IH]; intros s w Hc Hf Hup.
  - exists w. cbn [while_]. unfold retry_cond.
    assert (count s = 10%nat) as Hs by lia.
    rewrite Hs, andb_false_r. destruct s; cbn in *. by subst.
  - cbn [while_]. unfold retry_cond at 1. rewrite Hf.
    assert ((count s <? 10)%nat = true) as -> by (apply Nat.ltb_lt; lia).
    cbn [negb andb].
    destruct (attempt_spec mid s w) as (d & Hd & Hat); [lia|].
    erewrite bind_Ret by exact Hat.
    destruct (Hup 0%nat) as [e He]; [lia|].
    rewrite Nat.add_0_r in He. rewrite He.
    destruct (IH (RetryVars (fetched s) (S (count s)) (rv s))
                 (set_requests_made S (set_slept (λ l, l ++ [d]) w)))
      as [w' Hrun]; cbn [count fetched rv]; [lia|done| |].
    + intros k Hk. cbn [requests_made set_requests_made set_slept].
      destruct (Hup (S k)) as [e' He']; [lia|].
      exists e'. rewrite <- He'. f_equal. lia.
    + by exists w'.
Qed.

(** *** Inversion of the exception monad *)

Lemma obind_Ret_inv {A B : Type} (c : outcome A) (k : A → outcome B) b :
  obind c k = Ret b → ∃ a, c = Ret a ∧ k a = Ret b.
Proof. destruct c as [a|e]; [|done]. intros H. by exists a. Qed.

Lemma getitem_Ret_inv v k x :
  getitem v k = Ret x → ∃ d, v = VDict d ∧ d !! k = Some x.
Proof.
  destruct v as [| | | |d|]; try done. cbn.
  destruct (d !! k) as [y|] eqn:Hy; [|done].
  intros [= ->]. by exists d.
Qed.

Lemma dict_get_Ret d k x : dict_get d k = Ret x ↔ d !! k = Some x.
Proof.
  unfold dict_get, getitem. destruct (d !! k); split; congruence.
Qed.

Lemma dict_get_Some d k x : d !! k = Some x → dict_get d k = Ret x.
Proof. apply dict_get_Ret. Qed.

(** *** The match record and its key *)


Lemma process_match_delivers mid hero skill c w m w1 :
  delivers E mid skill w m w1 →
  process_match E mid hero skill c w = ingest E m w1 ∧ same_store w w1.
Proof.
  intros (s & r & Hf & Hrv & Hst & Hload).
  destruct (fetch_details_spec mid w) as (s' & w' & Hf' & Hsame & _).
  rewrite Hf in Hf'. injection Hf' as <- <-.
  split; [|done].
  unfold process_match. erewrite bind_Ret by exact Hf.
  rewrite Hrv. unfold lift at 1. unfold bind at 1.
  rewrite Hst. cbn [Z.eqb Pos.eqb negb]. rewrite Hload. done.
Qed.


Lemma dedup_fresh m key st w :
  match_key E m = Ret key → batch_match w !! key = None →
  m !! "start_time" = Some st →
  dedup E m w = (Ret (Next tt), set_batch_match (insert key st) w).
Proof.
  intros Hk Hv Hst. unfold dedup, bind, lift.
  by rewrite Hk, Hv, (dict_get_Some _ _ _ Hst).
Qed.


(** *** The filter *)

Lemma mode_name_mapped m gm z name :
  m !! "game_mode" = Some gm → as_num gm = Some z →
  env_MODE_ENUM E !! z = Some name →
  mode_name E m = Ret name.
Proof.
  intros Hgm Hz Hname. unfold mode_name.
  rewrite (dict_get_Some _ _ _ Hgm). cbn [obind].
  unfold int_key_lookup. rewrite Hz, Hname.
  by destruct gm.
Qed.

Lemma check_mode_allowed m name :
  mode_name E m = Ret name → name ∈ ALLOWED_MODES →
  check_mode E m = Ret (Next tt).
Proof.
  intros Hm Hin. unfold check_mode. rewrite Hm.
  by rewrite bool_decide_eq_true_2.
Qed.

Lemma check_mode_other m name :
  mode_name E m = Ret name → name ∉ ALLOWED_MODES →
  check_mode E m = Ret (Return (VInt (-1))).
Proof.
  intros Hm Hin. unfold check_mode. rewrite Hm.
  by rewrite bool_decide_eq_false_2.
Qed.

Lemma check_mode_unmapped m gm mid e :
  m !! "game_mode" = Some gm → m !! "match_id" = Some mid →
  int_key_lookup (env_MODE_ENUM E) gm = Raise e →
  check_mode E m = Raise (NameError "exceptions").
Proof.
  intros Hgm Hmid He. unfold check_mode, mode_name.
  rewrite (dict_get_Some _ _ _ Hgm). cbn [obind]. rewrite He.
  by rewrite (dict_get_Some _ _ _ Hmid).
Qed.

Lemma check_mode_Return m v :
  check_mode E m = Ret (Return v) → v = VInt (-1).
Proof.
  unfold check_mode. destruct (mode_name E m) as [name|e].
  - case_bool_decide; congruence.
  - intros H. apply obind_Ret_inv in H as (? & _ & H).
    by apply obind_Ret_inv in H as (? & _ & H).
Qed.


Lemma is_empty_dict_true v : is_empty_dict v = true ↔ v = VDict [].
Proof.
  destruct v as [| | | |[|kv d]|]; cbn; split; congruence.
Qed.

Lemma existsb_empty_dict ps :
  existsb is_empty_dict ps = true ↔ VDict [] ∈ ps.
Proof.
  rewrite existsb_exists. split.
  - intros (x & Hx & Hd). apply is_empty_dict_true in Hd as ->.
    by apply list_elem_of_In.
  - intros Hin. exists (VDict []). split; [by apply list_elem_of_In|].
    by apply is_empty_dict_true.
Qed.

(** The key of a hero flag is none of the keys the program reads. *)
Lemma player_body_flag p rad hero k pb :
  player_body E p = Ret (rad, hero, k, pb) →
  ∃ name, k = "hero-" +:+ slug name.
Proof.
  unfold player_body. intros H.
  apply obind_Ret_inv in H as (slot & _ & H).
  apply obind_Ret_inv in H as (rad' & _ & H).
  apply obind_Ret_inv in H as (h & _ & H).
  apply obind_Ret_inv in H as (h' & _ & H).
  apply obind_Ret_inv in H as (name & _ & H).
  destruct p as [| | | |d|]; try done.
  apply obind_Ret_inv in H as (fp & _ & H).
  apply obind_Ret_inv in H as (ab & _ & H).
  apply obind_Ret_inv in H as (au & _ & H).
  injection H as _ _ <- _. by exists name.
Qed.

Lemma leaver_update_calc m p y :
  calc_num m = Some y →
  calc_num (leaver_update m p)
    = Some match leaver_status_of p with
           | Some x => Z.max x y
           | None => y
           end.
Proof.
  unfold calc_num, leaver_update, leaver_status_of. intros Hy.
  destruct (m !! "calc_leaver") as [c|] eqn:Hc; [|done]. cbn in Hy.
  destruct (getitem p "leaver_status") as [ls|e]; cbn [obind].
  - rewrite (dict_get_Some _ _ _ Hc). cbn [obind].
    unfold py_gt, num_cmp. rewrite Hy.
    destruct (as_num ls) as [x|] eqn:Hx; cbn [obind].
    + destruct (Z.gtb_spec x y).
      * rewrite dict_lookup_insert_eq. cbn. rewrite Hx. f_equal. lia.
      * rewrite Hc. cbn. rewrite Hy. f_equal. lia.
    + rewrite Hc. by cbn.
  - rewrite Hc. by cbn.
Qed.

Lemma player_step_calc s p s' y :
  calc_num (lv_match s) = Some y →
  player_step E s p = Ret s' →
  calc_num (lv_match s')
    = Some match leaver_status_of p with
           | Some x => Z.max x y
           | None => y
           end ∧
  length (new_players s') = S (length (new_players s)).
Proof.
  intros Hy. unfold player_step. intros H.
  apply obind_Ret_inv in H as ([[[rad hero] k] pb] & Hb & H).
  injection H as <-. cbn [lv_match new_players].
  apply player_body_flag in Hb as [name ->]. split.
  - unfold calc_num. rewrite dict_lookup_insert_ne by done.
    by apply leaver_update_calc.
  - rewrite length_app. cbn. lia.
Qed.

Lemma player_loop_calc ps : ∀ s s' y,
  calc_num (lv_match s) = Some y →
  ofoldl (player_step E) s ps = Ret s' →
  calc_num (lv_match s') = Some (max_leaver y ps) ∧
  length (new_players s') = (length (new_players s) + length ps)%nat.
Proof.
  induction ps as [|p ps IH]; intros s s' y Hy H.
  - injection H as <-. split; [done|]. cbn. lia.
  - cbn [ofoldl] in H. apply obind_Ret_inv in H as (s1 & H1 & H).
    destruct (player_step_calc _ _ _ _ Hy H1) as [Hy1 Hlen1].
    destruct (IH _ _ _ Hy1 H) as [Hy' Hlen'].
    split; [done|]. rewrite Hlen', Hlen1. cbn. lia.
Qed.

(** A loop over players that can each be encoded runs to its end. *)
Lemma player_loop_total ps : ∀ s,
  Forall (λ p, ∃ r, player_body E p = Ret r) ps →
  ∃ s', ofoldl (player_step E) s ps = Ret s'.
Proof.
  induction ps as [|p ps IH]; intros s Hall.
  - by exists s.
  - apply Forall_cons in Hall as [[r Hr] Hall].
    cbn [ofoldl]. unfold player_step at 1. rewrite Hr. cbn [obind].
    destruct r as [[[rad hero] k] pb]. cbn [obind]. by apply IH.
Qed.


Lemma max_leaver_le b y ps :
  y ≤ b → Forall (λ p, ∀ z, leaver_status_of p = Some z → z ≤ b) ps →
  max_leaver y ps ≤ b.
Proof.
  revert y. induction ps as [|p ps IH]; intros y Hy Hall; cbn; [done|].
  apply Forall_cons in Hall as [Hp Hall]. apply IH; [|done].
  destruct (leaver_status_of p) as [x|]; [|done].
  specialize (Hp x eq_refl). lia.
Qed.


(** The filter past its first three rules: what is left is the player
    rule, the player loop and the leaver rule. *)
Lemma filter_match_players m d dz l lz ps :
  check_mode E m = Ret (Next tt) →
  m !! "duration" = Some d → as_num d = Some dz → 1200 ≤ dz →
  m !! "lobby_type" = Some l → as_num l = Some lz → lz ∉ BAD_LOBBIES →
  m !! "players" = Some (VList ps) →
  filter_match E m =
    if existsb is_empty_dict ps then Ret (Return (VInt (-4)))
    else
      s <~ ofoldl (player_step E)
             (LoopVars (<["calc_leaver" := VInt 0]> m) [] [] []) ps ;;
      c <~ dict_get (lv_match s) "calc_leaver" ;;
      leaver <~ py_gt c (VInt 1) ;;
      if leaver : bool then Ret (Return (VInt (-43))) else Ret (Next s).
Proof.
  intros Hmode Hd Hdz Hlong Hl Hlz Hlobby Hps. unfold filter_match.
  rewrite Hmode. cbn [obind].
  rewrite (dict_get_Some _ _ _ Hd). cbn [obind].
  unfold py_lt, num_cmp. rewrite Hdz. cbn [as_num obind].
  assert ((dz <? 1200) = false) as -> by lia.
  rewrite (dict_get_Some _ _ _ Hl). cbn [obind].
  unfold in_ints. rewrite Hlz. rewrite bool_decide_eq_false_2 by done.
  rewrite (dict_get_Some _ "players" (VList ps)) by (by rewrite dict_lookup_insert_ne).
  cbn [obind empty_dict_in py_iter]. done.
Qed.



(** The player loop and the leaver rule, for players that can be encoded:
    the match passes exactly when no leaver status exceeds 1. *)
Lemma filter_match_leaver m ps :
  Forall (λ p, ∃ r, player_body E p = Ret r) ps →
  ∃ s, ofoldl (player_step E)
         (LoopVars (<["calc_leaver" := VInt 0]> m) [] [] []) ps = Ret s ∧
       length (new_players s) = length ps ∧
       (c <~ dict_get (lv_match s) "calc_leaver" ;;
        leaver <~ py_gt c (VInt 1) ;;
        if leaver : bool then Ret (Return (VInt (-43))) else Ret (Next s))
       = (if 1 <? max_leaver 0 ps then Ret (Return (VInt (-43))) else Ret (Next s)).
Proof.
  intros Henc.
  destruct (player_loop_total ps (LoopVars (<["calc_leaver" := VInt 0]> m) [] [] []) Henc)
    as [s Hs].
  exists s. split; [done|].
  assert (calc_num (lv_match (LoopVars (<["calc_leaver" := VInt 0]> m) [] [] []))
          = Some 0) as H0.
  { unfold calc_num. cbn [lv_match]. by rewrite dict_lookup_insert_eq. }
  destruct (player_loop_calc ps _ s 0 H0 Hs) as [Hcalc Hlen].
  split; [done|].
  unfold calc_num in Hcalc.
  destruct (lv_match s !! "calc_leaver") as [c|] eqn:Hc; [|done].
  cbn in Hcalc. rewrite (dict_get_Some _ _ _ Hc). cbn [obind].
  unfold py_gt, num_cmp. rewrite Hcalc. cbn [as_num obind].
  by rewrite Z.gtb_ltb.
Qed.

(** A match that passes the five rules falls through the filter, with one
    record per player. *)
Lemma filter_match_accepts m d dz l lz ps :
  check_mode E m = Ret (Next tt) →
  m !! "duration" = Some d → as_num d = Some dz → 1200 ≤ dz →
  m !! "lobby_type" = Some l → as_num l = Some lz → lz ∉ BAD_LOBBIES →
  m !! "players" = Some (VList ps) → VDict [] ∉ ps →
  Forall (λ p, ∃ r, player_body E p = Ret r) ps →
  Forall (λ p, ∀ z, leaver_status_of p = Some z → z ≤ 1) ps →
  ∃ s, filter_match E m = Ret (Next s) ∧ length (new_players s) = length ps.
Proof.
  intros Hcheck Hd Hdz Hlong Hl Hlz Hlobby Hps Hfull Henc Hleave.
  rewrite (filter_match_players m d dz l lz ps) by done.
  destruct (existsb is_empty_dict ps) eqn:Hex.
  { by apply existsb_empty_dict in Hex. }
  destruct (filter_match_leaver m ps Henc) as (s & -> & Hlen & Hrule).
  cbn [obind]. exists s. rewrite Hrule. split; [|done].
  pose proof (max_leaver_le 1 0 ps ltac:(lia) Hleave).
  by assert ((1 <? max_leaver 0 ps) = false) as -> by lia.
Qed.


(** C10.  The player rule looks at nothing but empty player objects: a
    match whose player list holds none is never rejected with -4, and it
    is accepted under the other rules whatever the length of the list,
    the empty list included. *)
Theorem player_count_not_checked m ps :
  m !! "players" = Some (VList ps) → VDict [] ∉ ps →
  filter_match E m ≠ Ret (Return (VInt (-4))) ∧
  ∀ gm mode name d dz l lz,
    m !! "game_mode" = Some gm → as_num gm = Some mode →
    env_MODE_ENUM E !! mode = Some name → name ∈ ALLOWED_MODES →
    m !! "duration" = Some d → as_num d = Some dz → 1200 ≤ dz →
    m !! "lobby_type" = Some l → as_num l = Some lz → lz ∉ BAD_LOBBIES →
    Forall (λ p, ∃ r, player_body E p = Ret r) ps →
    Forall (λ p, ∀ z, leaver_status_of p = Some z → z ≤ 1) ps →
    ∃ s, filter_match E m = Ret (Next s) ∧
         length (new_players s) = length ps.
Proof.
  intros Hps Hfull. split.
  - unfold filter_match. intros H.
    apply obind_Ret_inv in H as (f & Hf & H). destruct f as [v0|[]].
    { injection H as ->. by apply check_mode_Return in Hf. }
    apply obind_Ret_inv in H as (d & _ & H).
    apply obind_Ret_inv in H as (short & _ & H).
    destruct short; [done|].
    apply obind_Ret_inv in H as (l & _ & H).
    destruct (in_ints l BAD_LOBBIES); [done|].
    apply obind_Ret_inv in H as (players & Hplayers & H).
    apply dict_get_Ret in Hplayers.
    rewrite dict_lookup_insert_ne in Hplayers by done.
    rewrite Hps in Hplayers. injection Hplayers as <-.
    apply obind_Ret_inv in H as (missing & Hmissing & H).
    injection Hmissing as <-.
    destruct (existsb is_empty_dict ps) eqn:Hex.
    { by apply existsb_empty_dict in Hex. }
    apply obind_Ret_inv in H as (ps' & _ & H).
    apply obind_Ret_inv in H as (s & _ & H).
    apply obind_Ret_inv in H as (c & _ & H).
    apply obind_Ret_inv in H as (leaver & _ & H).
    by destruct leaver.
  - intros gm mode name d dz l lz Hgm Hmode Hname Hallowed Hd Hdz Hlong
           Hl Hlz Hlobby Henc Hleave.
    pose proof (check_mode_allowed m name
                  (mode_name_mapped _ _ _ _ Hgm Hmode Hname) Hallowed) as Hcheck.
    by apply (filter_match_accepts m d dz l lz ps).
Qed.

(** *** The write and the whole of [ingest] *)





Lemma match_key_inv m key :
  match_key E m = Ret key →
  ∃ bt mid, m !! "batch_time" = Some bt ∧ m !! "match_id" = Some mid ∧
            key = py_str (env_py_repr E) bt +:+ "_" +:+ py_str (env_py_repr E) mid.
Proof.
  unfold match_key. intros H.
  apply obind_Ret_inv in H as (bt & Hbt & H).
  apply obind_Ret_inv in H as (mid & Hmid & H).
  injection H as <-. exists bt, mid.
  by rewrite <- !dict_get_Ret.
Qed.

(** The first processing of a match whose filter returns early: the key
    is marked and the code of the filter is returned. *)
Lemma ingest_rejected m key st t w code :
  match_key E m = Ret key → batch_match w !! key = None →
  m !! "start_time" = Some st → as_num st = Some t →
  is_Some (utcfromtimestamp t) →
  filter_match E m = Ret (Return code) →
  ingest E m w = (Ret code, set_batch_match (insert key st) w).
Proof.
  intros Hkey Hfresh Hst Ht [c Hc] Hfilter. unfold ingest.
  erewrite bind_Ret by (by apply (dedup_fresh m key st)).
  rewrite (dict_get_Some _ _ _ Hst). cbn [obind].
  unfold py_utcfromtimestamp. rewrite Ht, Hc.
  unfold bind at 1. unfold lift at 1.
  unfold bind at 1. unfold lift at 1. by rewrite Hfilter.
Qed.

(** The first processing of a match whose mode is not in the table. *)
Lemma ingest_unmapped m key st t gm e w :
  match_key E m = Ret key → batch_match w !! key = None →
  m !! "start_time" = Some st → as_num st = Some t →
  is_Some (utcfromtimestamp t) →
  m !! "game_mode" = Some gm →
  int_key_lookup (env_MODE_ENUM E) gm = Raise e →
  ingest E m w = (Raise (NameError "exceptions"),
                  set_batch_match (insert key st) w).
Proof.
  intros Hkey Hfresh Hst Ht [c Hc] Hgm He. unfold ingest.
  erewrite bind_Ret by (by apply (dedup_fresh m key st)).
  rewrite (dict_get_Some _ _ _ Hst). cbn [obind].
  unfold py_utcfromtimestamp. rewrite Ht, Hc.
  unfold bind at 1. unfold lift at 1.
  unfold bind at 1. unfold lift at 1.
  apply match_key_inv in Hkey as (bt & mid & _ & Hmid & _).
  unfold filter_match.
  by rewrite (check_mode_unmapped m gm mid e).
Qed.



(** C7, as amended.  On its first processing in a run, a match whose
    game mode has no entry in the mode table makes [process_match] raise:
    the key has been marked, nothing is written, and the player list is
    not looked at.  A game mode whose entry is a name outside the six is
    not an error: -1 is returned. *)
Theorem unmapped_mode_raises mid hero skill c w m w1 key st t gm :
  delivers E mid skill w m w1 → match_key E m = Ret key →
  batch_match w !! key = None →
  m !! "start_time" = Some st → as_num st = Some t →
  is_Some (utcfromtimestamp t) →
  m !! "game_mode" = Some gm →
  (∀ e, int_key_lookup (env_MODE_ENUM E) gm = Raise e →
     process_match E mid hero skill c w
       = (Raise (NameError "exceptions"),
          set_batch_match (insert key st) w1) ∧
     dota_table (set_batch_match (insert key st) w1) = dota_table w ∧
     ∀ players, ingest E (<["players" := players]> m) w1 = ingest E m w1) ∧
  (∀ name, int_key_lookup (env_MODE_ENUM E) gm = Ret name →
     name ∉ ALLOWED_MODES →
     process_match E mid hero skill c w
       = (Ret (VInt (-1)), set_batch_match (insert key st) w1)).
Proof.
  intros Hd Hk Hfresh Hst Ht Hutc Hgm.
  destruct (process_match_delivers mid hero skill c _ _ _ Hd)
    as [Heq (Hb & Htab & _)].
  rewrite <- Hb in Hfresh. rewrite Heq. split.
  - intros e He. split; [|split; [done|]].
    + by apply (ingest_unmapped m key st t gm e).
    + intros players.
      rewrite (ingest_unmapped m key st t gm e) by done.
      apply (ingest_unmapped _ key st t gm e); try done.
      * apply match_key_inv in Hk as (bt & mid0 & Hbt & Hmid & ->).
        unfold match_key.
        rewrite (dict_get_Some _ "batch_time" bt)
          by (by rewrite dict_lookup_insert_ne).
        rewrite (dict_get_Some _ "match_id" mid0)
          by (by rewrite dict_lookup_insert_ne).
        done.
      * by rewrite dict_lookup_insert_ne.
      * by rewrite dict_lookup_insert_ne.
  - intros name Hname Hout.
    apply (ingest_rejected m key st t); try done.
    unfold filter_match.
    rewrite (check_mode_other m name); [done| |done].
    unfold mode_name. by rewrite (dict_get_Some _ _ _ Hgm).
Qed.

(** *** The ledger *)

Lemma find_fmap_preserve {A : Type} (P : A → bool) (g : A → A) rows :
  (∀ r, P (g r) = P r) →
  List.find P (g <$> rows) = g <$> List.find P rows.
Proof.
  intros Hg. induction rows as [|r rows IH]; [done|].
  cbn. rewrite Hg. by destruct (P r).
Qed.

Lemma find_app_fresh {A : Type} (P : A → bool) rows x :
  List.find P rows = None → List.find P (rows ++ [x]) = List.find P [x].
Proof.
  induction rows as [|r rows IH]; [done|].
  cbn. destruct (P r); [done|]. apply IH.
Qed.

Lemma find_app_other {A : Type} (P : A → bool) rows x :
  P x = false → List.find P (rows ++ [x]) = List.find P rows.
Proof.
  intros Hx. induction rows as [|r rows IH]; cbn.
  - by rewrite Hx.
  - by destruct (P r).
Qed.

Lemma ledger_entry_insert now bt rows :
  ledger_entry bt rows = None →
  ledger_entry bt (upsert_stats now bt rows) = Some (now, 1).
Proof.
  unfold ledger_entry, upsert_stats. intros H.
  destruct (List.find _ rows) as [r|] eqn:Hfind; [done|].
  rewrite find_app_fresh by done. cbn. by rewrite Z.eqb_refl.
Qed.

Lemma ledger_entry_update now bt rows u f :
  ledger_entry bt rows = Some (u, f) →
  ledger_entry bt (upsert_stats now bt rows) = Some (now, f + 1).
Proof.
  unfold ledger_entry, upsert_stats. intros H.
  destruct (List.find _ rows) as [row|] eqn:Hfind; [|done].
  injection H as _ <-.
  rewrite find_fmap_preserve by (intros r; by case_match).
  rewrite Hfind. cbn.
  apply find_some in Hfind as [_ ->]. done.
Qed.

Lemma ledger_entry_other now bt bt' rows :
  bt' ≠ bt →
  ledger_entry bt (upsert_stats now bt' rows) = ledger_entry bt rows.
Proof.
  unfold ledger_entry, upsert_stats. intros Hne.
  destruct (List.find (λ r, row_batch_time r =? bt') rows) as [row|].
  - rewrite find_fmap_preserve by (intros r; by case_match).
    destruct (List.find _ rows) as [r|] eqn:Hfind; [|done].
    cbn. apply find_some in Hfind as [_ Hr].
    assert (row_batch_time r ≠ bt') as Hr' by lia.
    by rewrite (proj2 (Z.eqb_neq _ _) Hr').
  - rewrite find_app_other; [done|]. cbn. lia.
Qed.

Lemma record_success_spec bt w :
  record_success E bt w =
    (Ret tt, set_workflow_stats (upsert_stats (env_utcnow E (clock_reads w)) bt)
                                (set_clock_reads S w)).
Proof. done. Qed.

Lemma record_many_spec bt N : ∀ w u f,
  ledger_entry bt (workflow_stats w) = Some (u, f) →
  ∃ w', record_many E N bt w = (Ret tt, w') ∧
        clock_reads w' = (clock_reads w + N)%nat ∧
        ledger_entry bt (workflow_stats w')
          = Some (match N with
                  | O => u
                  | S n => env_utcnow E (clock_reads w + n)
                  end, f + Z.of_nat N).
Proof.
  induction N as [|N IH]; intros w u f Hentry.
  - exists w. cbn. rewrite Nat.add_0_r, Z.add_0_r. done.
  - cbn [record_many]. erewrite bind_Ret by apply record_success_spec.
    set (w1 := set_workflow_stats _ _).
    destruct (IH w1 (env_utcnow E (clock_reads w)) (f + 1)) as (w' & Hrun & Hclk & Hent).
    { subst w1. cbn. by apply (ledger_entry_update _ _ _ u). }
    exists w'. split; [done|]. split.
    + rewrite Hclk. subst w1. cbn. lia.
    + rewrite Hent. f_equal. f_equal; [|lia].
      destruct N as [|n]; subst w1; cbn.
      * by rewrite Nat.add_0_r.
      * f_equal. lia.
Qed.

(** C4.  With no ledger entry for [bt], the first [record_success bt]
    creates one with count 1; [N] further calls for [bt] bring the count
    to [N + 1] and leave in the entry the time read by the last call; a
    call for another batch time leaves the entry of [bt] as it is. *)
Theorem record_success_counts bt w :
  ledger_entry bt (workflow_stats w) = None →
  (∃ w1, record_success E bt w = (Ret tt, w1) ∧
         ledger_entry bt (workflow_stats w1)
           = Some (env_utcnow E (clock_reads w), 1) ∧
         ∀ N, ∃ w2, record_many E N bt w1 = (Ret tt, w2) ∧
                    ledger_entry bt (workflow_stats w2)
                      = Some (env_utcnow E (clock_reads w + N), Z.of_nat N + 1)) ∧
  (∀ bt' w0, bt' ≠ bt →
     ∃ w0', record_success E bt' w0 = (Ret tt, w0') ∧
            ledger_entry bt (workflow_stats w0')
              = ledger_entry bt (workflow_stats w0)).
Proof.
  intros Hnone. split.
  - eexists. split; [apply record_success_spec|].
    set (w1 := set_workflow_stats _ _).
    assert (ledger_entry bt (workflow_stats w1)
            = Some (env_utcnow E (clock_reads w), 1)) as Hfirst.
    { subst w1. cbn. by apply ledger_entry_insert. }
    split; [done|]. intros N.
    destruct (record_many_spec bt N w1 _ _ Hfirst) as (w2 & Hrun & _ & Hent).
    exists w2. split; [done|]. rewrite Hent. f_equal. f_equal; [|lia].
    destruct N as [|n]; subst w1; cbn.
    + by rewrite Nat.add_0_r.
    + f_equal. lia.
  - intros bt' w0 Hne. eexists. split; [apply record_success_spec|].
    cbn. by apply ledger_entry_other.
Qed.

(** *** The page loop *)

(** The loop over the matches of a page, when it runs to its end: every
    entry has been appended to [ms] and counted, whatever
    [process_match] returned for it. *)
Lemma page_entries_spec hero skill entries : ∀ acc w acc' w',
  mfoldl (page_entry E hero skill) acc entries w = (Ret acc', w') →
  ∃ ids, omap (λ e, getitem e "match_id") entries = Ret ids ∧
         acc' = (acc.1 ++ ids, acc.2 + Z.of_nat (length entries)).
Proof.
  induction entries as [|e entries IH]; intros acc w acc' w' H.
  - injection H as <- <-. exists []. split; [done|].
    rewrite app_nil_r, Z.add_0_r. by destruct acc.
  - cbn [mfoldl] in H.
    apply bind_inv in H as [(acc1 & w1 & Hentry & H)|(e0 & _ & [=])].
    apply IH in H as (ids & Hids & ->).
    unfold page_entry in Hentry.
    apply bind_inv in Hentry as [(mid & w2 & Hmid & Hentry)|(e0 & _ & [=])].
    apply lift_inv in Hmid as [Hmid ->].
    apply bind_inv in Hentry as [(mid' & w3 & _ & Hentry)|(e0 & _ & [=])].
    apply bind_inv in Hentry as [(bt & w4 & _ & Hentry)|(e0 & _ & [=])].
    apply bind_inv in Hentry as [(stored & w5 & _ & Hentry)|(e0 & _ & [=])].
    apply bind_inv in Hentry as [(u & w6 & _ & Hentry)|(e0 & _ & [=])].
    injection Hentry as <- _.
    exists (mid :: ids). cbn [omap]. rewrite <- Hmid, Hids. cbn [obind].
    split; [done|]. cbn [fst snd length]. rewrite <- app_assoc. cbn [app].
    f_equal. lia.
Qed.

(** One turn of the page loop on a page with results, when it runs to
    its end. *)
Lemma page_step_spec hero skill s w s' w' jj j n nz entries :
  env_upstream E (requests_made w)
    (GetMatchHistory skill (start_at_match_id s) hero)
    = Responds (Response 200 (Some jj)) →
  getitem jj "result" = Ret j → getitem j "num_results" = Ret n →
  as_num n = Some nz → 0 < nz →
  getitem j "matches" = Ret (VList entries) →
  page_step E hero skill s w = (Ret s', w') →
  ∃ ids, omap (λ e, getitem e "match_id") entries = Ret ids ∧
         counter s' = counter s + Z.of_nat (length entries) ∧
         ms s' = Some ids ∧
         min_minus_one (Some ids) = Ret (start_at_match_id s').
Proof.
  intros Hup Hj Hn Hnz Hpos Hentries H. unfold page_step in H.
  unfold requests_get in H. unfold bind at 1 in H. rewrite Hup in H.
  cbn [status_code text Z.eqb Pos.eqb obind] in H.
  rewrite Hj, bind_lift in H. rewrite Hn, bind_lift in H.
  unfold py_gt, num_cmp in H. rewrite Hnz in H. cbn [as_num] in H.
  rewrite bind_lift in H.
  assert ((nz >? 0) = true) as Hgt by lia. rewrite Hgt in H.
  rewrite Hentries in H. cbn [obind py_iter] in H.
  apply bind_inv in H as [(s1 & w1 & Hloop & H)|(e0 & _ & [=])].
  apply bind_inv in Hloop as [(entries' & w2 & Hl & Hloop)|(e0 & _ & [=])].
  apply lift_inv in Hl as [[= ->] ->].
  apply bind_inv in Hloop as [(r & w3 & Hloop & Hr)|(e0 & _ & [=])].
  injection Hr as <- _.
  apply page_entries_spec in Hloop as (ids & Hids & ->).
  cbn [ms counter start_at_match_id fst snd app] in H.
  apply bind_inv in H as [(next & w4 & Hmin & H)|(e0 & _ & [=])].
  apply lift_inv in Hmin as [Hmin ->].
  injection H as <- _. exists ids. by cbn.
Qed.

(** A turn of the page loop on a reply whose status is not 200 changes
    nothing but the request counter. *)
Lemma page_step_bad_status hero skill s w r :
  env_upstream E (requests_made w)
    (GetMatchHistory skill (start_at_match_id s) hero) = Responds r →
  status_code r ≠ 200 →
  page_step E hero skill s w = (Ret s, set_requests_made S w).
Proof.
  intros Hup Hst. unfold page_step, requests_get.
  unfold bind at 1. rewrite Hup.
  by rewrite (proj2 (Z.eqb_neq _ _) Hst).
Qed.

(** A [while] loop that ends normally ends with its condition false. *)
Lemma while_exit {S : Type} (cond : S → bool) (body : S → M S) fuel :
  ∀ s w s' w', while_ fuel cond body s w = (Ret s', w') → cond s' = false.
Proof.
  induction fuel as [|fuel IH]; intros s w s' w' H; cbn [while_] in H.
  - destruct (cond s) eqn:Hc; [done|]. by injection H as <- _.
  - destruct (cond s) eqn:Hc; [|by injection H as <- _].
    apply bind_inv in H as [(s1 & w1 & _ & H)|(e0 & _ & [=])].
    by apply IH in H.
Qed.

Lemma foldl_min_spec zs : ∀ z,
  foldl Z.min z zs ∈ z :: zs ∧ Forall (λ x, foldl Z.min z zs ≤ x) (z :: zs).
Proof.
  induction zs as [|y zs IH]; intros z; cbn [foldl].
  - split; [by left|]. by apply Forall_singleton.
  - destruct (IH (Z.min z y)) as [Hin Hall].
    apply Forall_cons in Hall as [Hz Hall]. split.
    + apply elem_of_cons in Hin as [Hin|Hin].
      * rewrite Hin. destruct (Z.min_spec z y) as [[_ ->]|[_ ->]].
        -- by left.
        -- right. by left.
      * right. by right.
    + repeat apply Forall_cons_2; [lia|lia|done].
Qed.

Lemma min_minus_one_spec ids next :
  min_minus_one (Some ids) = Ret next →
  ∃ zs, mapM as_num ids = Some zs ∧ next + 1 ∈ zs ∧
        Forall (λ z, next + 1 ≤ z) zs.
Proof.
  unfold min_minus_one. destruct ids as [|x ids]; [done|].
  destruct (as_num x) as [z|] eqn:Hz; [|done].
  destruct (mapM as_num ids) as [zs|] eqn:Hzs; [|done].
  intros [= <-]. exists (z :: zs). split.
  - cbn. rewrite Hz. cbn. by rewrite Hzs.
  - replace (foldl Z.min z zs - 1 + 1) with (foldl Z.min z zs) by lia.
    apply foldl_min_spec.
Qed.

(** C6.  After a page with results has been processed, the next
    [start_at_match_id] is the least match id of the page minus 1; when
    the upstream has answered within the cursor it was asked for (no id
    of the page above [start_at_match_id]), the new cursor is strictly
    below the old one. *)
Theorem cursor_is_page_minimum_minus_one hero skill s w s' w' jj j n nz entries :
  env_upstream E (requests_made w)
    (GetMatchHistory skill (start_at_match_id s) hero)
    = Responds (Response 200 (Some jj)) →
  getitem jj "result" = Ret j → getitem j "num_results" = Ret n →
  as_num n = Some nz → 0 < nz →
  getitem j "matches" = Ret (VList entries) →
  page_step E hero skill s w = (Ret s', w') →
  ∃ ids zs,
    omap (λ e, getitem e "match_id") entries = Ret ids ∧
    mapM as_num ids = Some zs ∧
    start_at_match_id s' + 1 ∈ zs ∧
    Forall (λ z, start_at_match_id s' + 1 ≤ z) zs ∧
    (Forall (λ z, z ≤ start_at_match_id s) zs →
     start_at_match_id s' < start_at_match_id s).
Proof.
  intros Hup Hj Hn Hnz Hpos Hentries Hstep.
  destruct (page_step_spec _ _ _ _ _ _ _ _ _ _ _ Hup Hj Hn Hnz Hpos Hentries Hstep)
    as (ids & Hids & _ & _ & Hmin).
  apply min_minus_one_spec in Hmin as (zs & Hzs & Hin & Hall).
  exists ids, zs. repeat split; try done.
  intros Hbound. rewrite Forall_forall in Hbound.
  specialize (Hbound _ Hin). lia.
Qed.

(** C5, as amended.  The page loop is re-entered exactly while [counter]
    is at most [MATCHES_PER_HERO]; the test is made between pages only.
    [counter] grows by one for every match of a page handed to
    [process_match], whatever the outcome of that call, and a reply
    whose status is not 200 leaves it as it is.  So the loop, when it
    ends, ends with [counter] above [MATCHES_PER_HERO]. *)
Theorem fetch_loop_counts_processed hero skill :
  (∀ fuel s w,
     while_ (S fuel) page_cond (page_step E hero skill) s w
     = if counter s <=? MATCHES_PER_HERO
       then bind (page_step E hero skill s)
                 (while_ fuel page_cond (page_step E hero skill)) w
       else (Ret s, w)) ∧
  (∀ s w s' w' jj j n nz entries,
     env_upstream E (requests_made w)
       (GetMatchHistory skill (start_at_match_id s) hero)
       = Responds (Response 200 (Some jj)) →
     getitem jj "result" = Ret j → getitem j "num_results" = Ret n →
     as_num n = Some nz → 0 < nz →
     getitem j "matches" = Ret (VList entries) →
     page_step E hero skill s w = (Ret s', w') →
     counter s' = counter s + Z.of_nat (length entries)) ∧
  (∀ s w r,
     env_upstream E (requests_made w)
       (GetMatchHistory skill (start_at_match_id s) hero) = Responds r →
     status_code r ≠ 200 →
     page_step E hero skill s w = (Ret s, set_requests_made S w)) ∧
  (∀ fuel w s' w',
     fetch_loop E hero skill fuel w = (Ret s', w') →
     MATCHES_PER_HERO < counter s').
Proof.
  split; [|split; [|split]].
  - intros fuel s w. cbn [while_]. unfold page_cond. by case_match.
  - intros s w s' w' jj j n nz entries Hup Hj Hn Hnz Hpos Hentries Hstep.
    by destruct (page_step_spec _ _ _ _ _ _ _ _ _ _ _
                   Hup Hj Hn Hnz Hpos Hentries Hstep) as (ids & _ & Hc & _).
  - intros s w r Hup Hst. by apply (page_step_bad_status _ _ _ _ r).
  - intros fuel w s' w' H. unfold fetch_loop in H.
    apply while_exit in H. unfold page_cond in H. lia.
Qed.

(** *** The outcomes of an exhausted retry loop *)

(** When every attempt raises, [rv] is never bound and line 128 raises. *)
Lemma process_match_all_raise mid hero skill c w :
  (∀ k, (k < 10)%nat →
     ∃ e, env_upstream E (requests_made w + k) (GetMatchDetails mid) = Raises e) →
  ∃ w', process_match E mid hero skill c w = (Raise (UnboundLocalError "rv"), w') ∧
        same_store w w' ∧ requests_made w' = (requests_made w + 10)%nat.
Proof.
  intros Hup.
  destruct (retry_loop_all_raise mid 10 (RetryVars false 0 None) w)
    as [w' Hrun]; [done|done|done|].
  destruct (fetch_details_spec mid w) as (s & w'' & Hf & Hsame & _ & _ & _ & Hreq & _).
  unfold fetch_details in Hf. rewrite Hrun in Hf. injection Hf as <- <-.
  exists w'. split; [|done].
  unfold process_match, fetch_details. erewrite bind_Ret by exact Hrun.
  cbn [rv]. by rewrite bind_lift.
Qed.

(** When the loop ends without a status 200 but some attempt was
    answered, -44 is returned. *)
Lemma process_match_exhausted mid hero skill c w s w' r :
  fetch_details E mid w = (Ret s, w') → rv s = Some r →
  status_code r ≠ 200 →
  process_match E mid hero skill c w = (Ret (VInt (-44)), w').
Proof.
  intros Hf Hrv Hst. unfold process_match.
  erewrite bind_Ret by exact Hf. rewrite Hrv, bind_lift.
  by rewrite (proj2 (Z.eqb_neq _ _) Hst).
Qed.

(** *** Checks by computation *)

Lemma delivers_first_attempt mid skill w body m :
  env_upstream E (requests_made w) (GetMatchDetails mid)
    = Responds (Response 200 (Some body)) →
  load_match E (Response 200 (Some body)) skill = Ret m →
  delivers E mid skill w m
    (set_requests_made S (set_slept (λ l, l ++ [0.05%Q]) w)).
Proof.
  intros Hup Hload.
  exists (RetryVars true 1 (Some (Response 200 (Some body)))),
         (Response 200 (Some body)).
  split; [|done].
  unfold fetch_details. cbn [while_].
  destruct (attempt_spec mid (RetryVars false 0 None) w) as (d & Hd & Hat);
    [cbn; lia|].
  injection Hd as <-.
  change (retry_cond (RetryVars false 0 None)) with true. cbn match.
  erewrite bind_Ret by exact Hat. by rewrite Hup.
Qed.

Lemma no_empty_dict ps : existsb is_empty_dict ps = false → VDict [] ∉ ps.
Proof. intros H Hin. apply existsb_empty_dict in Hin. congruence. Qed.



End Properties.


(** ** The theorems at concrete inputs *)

Example utcfromtimestamp_epoch :
  utcfromtimestamp 0 = Some (Civil 1970 1 1 0).
Proof. reflexivity. Qed.

Example utcfromtimestamp_leap_day :
  utcfromtimestamp 951782400 = Some (Civil 2000 2 29 0).
Proof. reflexivity. Qed.

Example batch_time_of_noon :
  strftime_YmdH_int <$> utcfromtimestamp noon_2024_01_01 = Some 2024010112.
Proof. reflexivity. Qed.

(** The scenario of the specification: match 123 is stored, one item is
    written under its key, and the batch time is returned. *)
Example scenario_match_123 :
  let r := process_match env_good (VInt 123) 1 3 0 empty_world in
  r.1 = Ret (VInt 2024010112) ∧ length (dota_table r.2) = 1%nat ∧
  is_Some (batch_match r.2 !! "2024010112_123") ∧
  slept r.2 = [0.05%Q] ∧ requests_made r.2 = 1%nat.
Proof. vm_compute. repeat split; try done. by eexists. Qed.



(** Three players are as good as ten. *)
Lemma player_count_not_checked_witness :
  filter_match env_good
    (example_result 123 noon_2024_01_01 1800 0 1 (take 3 ten_players))
  ≠ Ret (Return (VInt (-4))).
Proof.
  apply (player_count_not_checked env_good
           (example_result 123 noon_2024_01_01 1800 0 1 (take 3 ten_players))
           (take 3 ten_players) ltac:(vm_compute; reflexivity)).
  apply no_empty_dict. vm_compute. reflexivity.
Defined.




(** Game mode 99 is not in the table: the first processing raises, with
    nothing written. *)
Lemma unmapped_mode_raises_witness :
  ∃ w', process_match env_unmapped (VInt 123) 1 3 0 empty_world
          = (Raise (NameError "exceptions"), w') ∧
        dota_table w' = dota_table empty_world.
Proof.
  destruct (unmapped_mode_raises env_unmapped (VInt 123) 1 3 0 empty_world
              (<["batch_time" := VInt 2024010112]>
                 (<["api_skill" := VInt 3]>
                    (example_result 123 noon_2024_01_01 1800 0 99 ten_players)))
              (World ∅ [] 0 [] 1 [0.05%Q] 0)
              "2024010112_123" (VInt noon_2024_01_01) noon_2024_01_01
              (VInt 99)) as [Hraise _].
  - apply (delivers_first_attempt env_unmapped (VInt 123) 3 empty_world
             (example_match 123 noon_2024_01_01 1800 0 99 ten_players)).
    + reflexivity.
    + vm_compute. reflexivity.
  - vm_compute. reflexivity.
  - reflexivity.
  - vm_compute. reflexivity.
  - reflexivity.
  - vm_compute. eauto.
  - vm_compute. reflexivity.
  - destruct (Hraise (KeyError (VInt 99))) as (Hrun & Htab & _).
    + vm_compute. reflexivity.
    + eexists. split; [exact Hrun|exact Htab].
Defined.

(** C7, as stated, fails: game mode 18 maps to "Ability Draft", which is
    not one of the six names, and the match is rejected with -1 without
    any exception. *)
Lemma other_mode_is_rejected :
  (example_MODE_ENUM !! 18) = Some "Ability Draft" ∧
  ("Ability Draft" ∉ ALLOWED_MODES) ∧
  (process_match env_ability_draft (VInt 123) 1 3 0 empty_world).1
    = Ret (VInt (-1)) ∧
  ∀ e, (process_match env_ability_draft (VInt 123) 1 3 0 empty_world).1 ≠ Raise e.
Proof.
  split; [vm_compute; reflexivity|]. split; [compute_done|].
  assert ((process_match env_ability_draft (VInt 123) 1 3 0 empty_world).1
          = Ret (VInt (-1))) as H by (vm_compute; reflexivity).
  split; [exact H|]. intros e. by rewrite H.
Qed.

(** C3: the upstream cannot be reached.  Ten attempts are made along the
    first ten entries of the schedule, and then line 128 raises instead of
    returning -44. *)
Theorem process_match_unbound_rv :
  let r := process_match env_down (VInt 123) 1 3 0 empty_world in
  r.1 = Raise (UnboundLocalError "rv") ∧ r.1 ≠ Ret (VInt (-44)) ∧
  requests_made r.2 = 10%nat ∧ slept r.2 = take 10 SLEEP_SCHEDULE.
Proof. vm_compute. repeat split; done. Qed.

(** Four calls for 2024010112 on an empty ledger. *)
Lemma record_success_counts_witness :
  ∃ w1, record_success env_good 2024010112 empty_world = (Ret tt, w1) ∧
        ledger_entry 2024010112 (workflow_stats w1)
          = Some (env_utcnow env_good (clock_reads empty_world), 1) ∧
        ∀ N, ∃ w2, record_many env_good N 2024010112 w1 = (Ret tt, w2) ∧
                   ledger_entry 2024010112 (workflow_stats w2)
                     = Some (env_utcnow env_good (clock_reads empty_world + N),
                             Z.of_nat N + 1).
Proof.
  apply (proj1 (record_success_counts env_good 2024010112 empty_world eq_refl)).
Defined.

(** The first page of eleven matches, ids 111 down to 101: the next cursor
    is 100. *)
Lemma cursor_is_page_minimum_minus_one_witness :
  let r := page_step env_short_pages 79 3 (PageVars 9999999999 0 None) empty_world in
  ∃ s', r.1 = Ret s' ∧ start_at_match_id s' + 1 ∈ short_ids ∧
        Forall (λ z, start_at_match_id s' + 1 ≤ z) short_ids ∧
        start_at_match_id s' < 9999999999.
Proof.
  intros r.
  assert (r.1 = Ret (PageVars 100 11 (Some (VInt <$> short_ids)))) as Hr.
  { vm_compute. reflexivity. }
  assert (page_step env_short_pages 79 3 (PageVars 9999999999 0 None) empty_world
          = (Ret (PageVars 100 11 (Some (VInt <$> short_ids))), r.2)) as Hstep.
  { rewrite <- Hr. apply surjective_pairing. }
  set (entries := (λ i, VDict [ ("match_id", VInt i) ]%string) <$> short_ids).
  set (j := VDict [ ("num_results", VInt 11); ("results_remaining", VInt 100);
                    ("matches", VList entries) ]%string).
  assert (getitem (example_page short_ids) "result" = Ret j) as Hj
    by (vm_compute; reflexivity).
  assert (getitem j "num_results" = Ret (VInt 11)) as Hn
    by (vm_compute; reflexivity).
  assert (getitem j "matches" = Ret (VList entries)) as He
    by (vm_compute; reflexivity).
  destruct (cursor_is_page_minimum_minus_one env_short_pages 79 3
              (PageVars 9999999999 0 None) empty_world _ _
              (example_page short_ids) j (VInt 11) 11 entries
              eq_refl Hj Hn eq_refl eq_refl He Hstep)
    as (ids & zs & Hids & Hzs & Hin & Hall & Hdec).
  vm_compute in Hids. injection Hids as <-.
  vm_compute in Hzs. injection Hzs as <-.
  eexists. split; [exact Hr|].
  split; [exact Hin|]. split; [exact Hall|].
  apply Hdec. unfold start_at_match_id.
  repeat (apply Forall_cons_2; [lia|]). apply Forall_nil_2.
Defined.

(** C5, as stated, fails: on a page of eleven matches that are all
    rejected, the loop ends after that page although nothing has been
    stored and the upstream still reports results. *)
Lemma quota_reached_without_success :
  let r := fetch_loop env_short_pages 79 3 1 empty_world in
  (∃ s, r.1 = Ret s ∧ counter s = 11) ∧
  dota_table r.2 = [] ∧ workflow_stats r.2 = [] ∧ requests_made r.2 = 12%nat.
Proof. vm_compute. repeat split; try done. by eexists. Qed.
